(** * PandasValidations: a shallow embedding of validations/PandasValidation.py

    The module wraps two third-party libraries, pandas ([pd]) and Great
    Expectations ([gx]).  Neither is part of the repository, so both enter the
    development as interfaces (type classes); the three methods of the class
    [PandasValidations] are translated line by line over these interfaces, in
    a state-and-exception monad that also records every call made to a
    collaborator in a trace. *)

From stdpp Require Import base strings list gmap pretty.

(** ** Python values *)

(** The value an [__exit__] method hands back to the [with] statement.  A
    method body without [return] yields [None]. *)
Inductive PyRet : Type :=
  | PyNone
  | PyBool (b : bool).

(** Truth value testing, as the [with] statement applies it to the result of
    [__exit__]. *)
Definition truthy (r : PyRet) : bool :=
  match r with
  | PyNone => false
  | PyBool b => b
  end.

(** [x is None] *)
Definition is_none {A} (x : option A) : bool :=
  match x with
  | None => true
  | Some _ => false
  end.

(** [x == s] for an [Optional[str]] against a string literal: [None] equals
    no string. *)
Definition py_eq (x : option string) (s : string) : bool :=
  match x with
  | None => false
  | Some y => String.eqb y s
  end.

(** [x in l] for a list literal of strings: the first element equal to [x]
    decides. *)
Fixpoint py_in (x : option string) (l : list string) : bool :=
  match l with
  | [] => false
  | s :: l' => py_eq x s || py_in x l'
  end.

(** ** Collaborators *)

(** pandas: the table type, its [shape] attribute and the two readers.  A
    reader runs against the outside world [Ext] (the file system) and either
    returns a table or fails with an error of the library's own. *)
Class Pandas (Ext ExtErr : Type) := {
  DataFrame : Type;
  shape : DataFrame → nat * nat;
  read_parquet : option string → Ext → (ExtErr + DataFrame) * Ext;
  read_csv : option string → Ext → (ExtErr + DataFrame) * Ext
}.

(** Great Expectations: the calls the module makes, each a fallible
    transformer of the outside world, and one observation,
    [list_expectation_suite_names], that the module itself never calls but that
    says which suites a context holds. *)
Class GX (Ext ExtErr DF : Type) := {
  DataContext : Type;
  Datasource : Type;
  DataAsset : Type;
  BatchRequest : Type;
  Validator : Type;
  get_context : Ext → (ExtErr + DataContext) * Ext;
  add_or_update_expectation_suite :
    DataContext → string → Ext → (ExtErr + unit) * Ext;
  add_pandas : DataContext → string → Ext → (ExtErr + Datasource) * Ext;
  add_dataframe_asset : Datasource → string → Ext → (ExtErr + DataAsset) * Ext;
  build_batch_request : DataAsset → DF → Ext → (ExtErr + BatchRequest) * Ext;
  get_validator :
    DataContext → BatchRequest → string → Ext → (ExtErr + Validator) * Ext;
  delete_expectation_suite :
    DataContext → string → Ext → (ExtErr + unit) * Ext;
  list_expectation_suite_names : DataContext → Ext → list string
}.

(** The one property of the engine that the round-trip claim relies on: a
    [delete_expectation_suite] that returns has removed the name. *)
Class GXDeletes {Ext ExtErr DF} (gx : GX Ext ExtErr DF) : Prop :=
  delete_removes :
    ∀ c name x x',
      delete_expectation_suite c name x = (inr (), x') →
      name ∉ list_expectation_suite_names c x'.

Section PandasValidation.
Context {Ext ExtErr : Type} {pd : Pandas Ext ExtErr}
  {gx : GX Ext ExtErr DataFrame}.

(** ** Exceptions *)

(** [ValueError] is what the constructor raises (the specification calls it
    ConfigurationError); [AttributeError] is what reading an attribute that
    was never assigned raises; [Foreign] carries, unchanged, whatever a
    collaborator raised. *)
Inductive exn : Type :=
  | ValueError (msg : string)
  | AttributeError (msg : string)
  | Foreign (e : ExtErr).

Definition is_ValueError (e : exn) : bool :=
  match e with
  | ValueError _ => true
  | _ => false
  end.

(** ** Calls observed at the boundary *)

Inductive Event : Type :=
  | EvReadParquet (path : option string)
  | EvReadCsv (path : option string)
  | EvLogInfo (msg : string)
  | EvGetContext
  | EvAddOrUpdateSuite (c : DataContext) (name : string)
  | EvAddPandas (c : DataContext) (name : string)
  | EvAddDataframeAsset (ds : Datasource) (name : string)
  | EvBuildBatchRequest (a : DataAsset) (d : DataFrame)
  | EvGetValidator (c : DataContext) (br : BatchRequest) (name : string)
  | EvDeleteSuite (c : DataContext) (name : string).

Definition is_file_read (ev : Event) : bool :=
  match ev with
  | EvReadParquet _ | EvReadCsv _ => true
  | _ => false
  end.

(** The process as the module sees it: the calls made so far, oldest first,
    and the state of the outside world. *)
Record World : Type := mkWorld {
  trace : list Event;
  ext : Ext
}.

(** ** The monad: state, then exception *)

Definition M (St A : Type) : Type := St → (exn + A) * St.

#[global] Instance M_ret {St} : MRet (M St) := λ A a s, (inr a, s).

#[global] Instance M_bind {St} : MBind (M St) := λ A B f m s,
  match m s with
  | (inl e, s') => (inl e, s')
  | (inr a, s') => f a s'
  end.

#[global] Instance M_throw {St} : MThrow exn (M St) := λ A e s, (inl e, s).

(** A call into a collaborator: the event is recorded, the outside world
    moves, and a failure surfaces as [Foreign]. *)
Definition foreign {A} (ev : Event) (f : Ext → (ExtErr + A) * Ext)
    : M World A := λ w,
  let '(r, x) := f (ext w) in
  (match r with
   | inl e => inl (Foreign e)
   | inr a => inr a
   end,
   mkWorld (trace w ++ [ev]) x).

(** [Utils.logger.info(msg)] *)
Definition logger_info (msg : string) : M World unit := λ w,
  (inr (), mkWorld (trace w ++ [EvLogInfo msg]) (ext w)).

(** [str] of the tuple [df.shape], as an f-string prints it. *)
Definition str_shape (sh : nat * nat) : string :=
  "(" +:+ pretty (fst sh) +:+ ", " +:+ pretty (snd sh) +:+ ")".

(** ** The class *)

(** An instance after [__init__] has returned: [df] and [gx_suite_name] are
    assigned there; [context] is assigned by [__enter__] only, and is absent
    before. *)
Record PandasValidations : Type := mkPandasValidations {
  df : DataFrame;
  gx_suite_name : string;
  context : option DataContext
}.

Definition __init__ (expectation_suite_name : string)
    (df : option DataFrame) (file_path file_type : option string)
    : M World PandasValidations :=
  if is_none df && (is_none file_path || is_none file_type) then
    mthrow (ValueError "Either df or file_path and file_type must be provided")
  else if negb (py_in file_type ["parquet"; "csv"]) then
    mthrow (ValueError "file_type must be either parquet or csv")
  else
    self_df ← match df with
              | None =>
                  if py_eq file_type "parquet"
                  then foreign (EvReadParquet file_path) (read_parquet file_path)
                  else foreign (EvReadCsv file_path) (read_csv file_path)
              | Some d => mret d
              end;
    logger_info ("Succefully read dataframe. Shape: " +:+ str_shape (shape self_df));;
    mret (mkPandasValidations self_df expectation_suite_name None).

(** ** Methods that run on a constructed instance *)

(** What a bound method sees: the instance it was called on (mutated in place,
    so an assignment made before an exception stays made) and the world. *)
Record State : Type := mkState {
  self : PandasValidations;
  world : World
}.

(** Run a computation on the world, leaving the instance alone. *)
Definition in_world {A} (m : M World A) : M State A := λ st,
  let '(r, w) := m (world st) in (r, mkState (self st) w).

(** [self.df] *)
Definition self_df : M State DataFrame := λ st, (inr (df (self st)), st).

(** [self.gx_suite_name] *)
Definition self_gx_suite_name : M State string := λ st,
  (inr (gx_suite_name (self st)), st).

(** [self.context]: an [AttributeError] before the first [__enter__]. *)
Definition self_context : M State DataContext := λ st,
  match context (self st) with
  | Some c => (inr c, st)
  | None =>
      (inl (AttributeError
              "'PandasValidations' object has no attribute 'context'"), st)
  end.

(** [self.context = c] *)
Definition set_self_context (c : DataContext) : M State unit := λ st,
  (inr (),
   mkState (mkPandasValidations (df (self st)) (gx_suite_name (self st)) (Some c))
           (world st)).

Definition __enter__ : M State Validator :=
  c ← in_world (foreign EvGetContext get_context);
  set_self_context c;;
  c ← self_context;
  name ← self_gx_suite_name;
  in_world (foreign (EvAddOrUpdateSuite c name)
                    (add_or_update_expectation_suite c name));;
  c ← self_context;
  datasource ← in_world (foreign (EvAddPandas c "pandas_datasource")
                                 (add_pandas c "pandas_datasource"));
  data_asset ← in_world (foreign (EvAddDataframeAsset datasource "df_asset")
                                 (add_dataframe_asset datasource "df_asset"));
  c ← self_context;
  d ← self_df;
  batch_request ← in_world (foreign (EvBuildBatchRequest data_asset d)
                                    (build_batch_request data_asset d));
  name ← self_gx_suite_name;
  in_world (foreign (EvGetValidator c batch_request name)
                    (get_validator c batch_request name)).

(** The triple [(exc_type, exc_value, exc_traceback)]: all [None] on a normal
    exit, otherwise the exception that left the body. *)
Definition exc_info : Type := option exn.

Definition __exit__ (exc : exc_info) : M State PyRet :=
  c ← self_context;
  name ← self_gx_suite_name;
  in_world (foreign (EvDeleteSuite c name) (delete_expectation_suite c name));;
  mret PyNone.

(** ** The [with] statement *)

(** [with self as validator: body] as the language defines it: [__enter__]
    runs first and, if it raises, nothing else happens; the body runs with the
    value [__enter__] returned; [__exit__] then runs whichever way the body
    ended.  After a body that raised [e], a truthy result of [__exit__]
    swallows [e], any other result re-raises it, and an exception out of
    [__exit__] itself replaces it.  The body is the caller's code: it works on
    the validator and the world and does not touch the instance. *)
Definition with_stmt (body : Validator → M World unit) : M State unit := λ st,
  match __enter__ st with
  | (inl e, st1) => (inl e, st1)
  | (inr validator, st1) =>
      match in_world (body validator) st1 with
      | (inr _, st2) => (__exit__ None;; mret ()) st2
      | (inl e, st2) =>
          match __exit__ (Some e) st2 with
          | (inl e', st3) => (inl e', st3)
          | (inr r, st3) => if truthy r then (inr (), st3) else (inl e, st3)
          end
      end
  end.

(** ** Arbitrary use of an instance *)

(** One call of a scoped method by whoever holds the instance. *)
Inductive Call : Type :=
  | CallEnter
  | CallExit (exc : exc_info).

(** The state a call leaves behind, whether it returned or raised. *)
Definition call (k : Call) (st : State) : State :=
  match k with
  | CallEnter => snd (__enter__ st)
  | CallExit exc => snd (__exit__ exc st)
  end.

Definition calls (ks : list Call) (st : State) : State :=
  foldl (λ st k, call k st) st ks.

(** ** Reading the trace *)

(** The calls made between an earlier world [w] and a later one [w']. *)
Definition new_events (w w' : World) : list Event :=
  drop (length (trace w)) (trace w').

(** No reader was called between [w] and [w']. *)
Definition no_file_read (w w' : World) : bool :=
  forallb (λ ev, negb (is_file_read ev)) (new_events w w').

(** The outcome is the constructor's own [ValueError]. *)
Definition raises_ValueError {A St} (r : (exn + A) * St) : bool :=
  match fst r with
  | inl e => is_ValueError e
  | inr _ => false
  end.

(** ** Kinds of calls *)

Definition is_log (ev : Event) : bool :=
  match ev with
  | EvLogInfo _ => true
  | _ => false
  end.

Definition is_delete_suite (ev : Event) : bool :=
  match ev with
  | EvDeleteSuite _ _ => true
  | _ => false
  end.

(** A call into the validation engine, of any kind. *)
Definition is_engine_call (ev : Event) : bool :=
  match ev with
  | EvReadParquet _ | EvReadCsv _ | EvLogInfo _ => false
  | _ => true
  end.

(** One of the six calls [__enter__] makes. *)
Definition is_enter_call (ev : Event) : bool :=
  is_engine_call ev && negb (is_delete_suite ev).

(** The log line the constructor writes for a resolved table. *)
Definition shape_log (t : DataFrame) : Event :=
  EvLogInfo ("Succefully read dataframe. Shape: " +:+ str_shape (shape t)).

(** The instance with its suite name replaced. *)
Definition with_suite_name (name : string) (s : PandasValidations)
    : PandasValidations :=
  mkPandasValidations (df s) name (context s).

(** ** Every way the constructor can end *)

(** The outcomes of [__init__], over all inputs: a [ValueError] of its own
    with the world untouched; the supplied table and one log line; one read
    that failed; or one read that returned, and one log line. *)
Inductive init_outcome (name : string) (d : option DataFrame) (w : World)
    : (exn + PandasValidations) * World → Prop :=
  | InitValueError msg :
      init_outcome name d w (inl (ValueError msg), w)
  | InitGiven t :
      d = Some t →
      init_outcome name d w
        (inr (mkPandasValidations t name None),
         mkWorld (trace w ++ [shape_log t]) (ext w))
  | InitReadFailed ev e x :
      d = None → is_file_read ev = true →
      init_outcome name d w
        (inl (Foreign e), mkWorld (trace w ++ [ev]) x)
  | InitRead ev t x :
      d = None → is_file_read ev = true →
      init_outcome name d w
        (inr (mkPandasValidations t name None),
         mkWorld (trace w ++ [ev; shape_log t]) x).

(** A caller's body that declares nothing and returns. *)
Definition body_pass : Validator → M World unit := λ _, mret ().

(** A caller's body that fails with an error of its own. *)
Definition body_raise (e : exn) : Validator → M World unit := λ _, mthrow e.

End PandasValidation.

(** ** In-memory collaborators

    A small pandas and a small engine over one record, used to run the class
    on concrete inputs.  Files carry their format, so the Parquet reader
    refuses a CSV file and conversely; the engine keeps suite names in one
    store shared by every context, hands out numbered contexts, and refuses to
    delete or validate against a suite it does not hold. *)

Inductive FileFormat : Type :=
  | Parquet
  | Csv.

Definition FileFormat_eqb (a b : FileFormat) : bool :=
  match a, b with
  | Parquet, Parquet | Csv, Csv => true
  | _, _ => false
  end.

Definition Table : Type := list (list nat).

Record MemExt : Type := mkMemExt {
  mem_files : gmap string (FileFormat * Table);
  mem_suites : gset string;
  mem_contexts : nat
}.

Definition mem_read (fmt : FileFormat) (path : option string) (x : MemExt)
    : (string + Table) * MemExt :=
  match path with
  | None => (inl "Invalid file path or buffer object type", x)
  | Some p =>
      match mem_files x !! p with
      | None => (inl "No such file or directory", x)
      | Some (f, t) =>
          if FileFormat_eqb f fmt then (inr t, x)
          else (inl "Could not parse file", x)
      end
  end.

#[global] Instance mem_pandas : Pandas MemExt string := {|
  DataFrame := Table;
  shape := λ t, (length t, length (default [] (head t)));
  read_parquet := mem_read Parquet;
  read_csv := mem_read Csv
|}.

Definition mem_with_suites (s : gset string) (x : MemExt) : MemExt :=
  mkMemExt (mem_files x) s (mem_contexts x).

Definition mem_needs_suite {A} (name : string) (a : A) (x : MemExt)
    : (string + A) * MemExt :=
  if decide (name ∈ mem_suites x) then (inr a, x)
  else (inl "expectation_suite not found", x).

#[global] Instance mem_gx : GX MemExt string (@DataFrame _ _ mem_pandas) := {|
  DataContext := nat;
  Datasource := nat * string;
  DataAsset := nat * string * string;
  BatchRequest := nat * string * string * Table;
  Validator := nat * string * string * Table * string;
  get_context := λ x,
    (inr (mem_contexts x),
     mkMemExt (mem_files x) (mem_suites x) (S (mem_contexts x)));
  add_or_update_expectation_suite := λ _ name x,
    (inr (), mem_with_suites (mem_suites x ∪ {[name]}) x);
  add_pandas := λ c name x, (inr (c, name), x);
  add_dataframe_asset := λ ds name x, (inr (ds, name), x);
  build_batch_request := λ a d x, (inr (a, d), x);
  get_validator := λ _ br name x, mem_needs_suite name (br, name) x;
  delete_expectation_suite := λ _ name x,
    match mem_needs_suite name () x with
    | (inr _, _) => (inr (), mem_with_suites (mem_suites x ∖ {[name]}) x)
    | (inl e, _) => (inl e, x)
    end;
  list_expectation_suite_names := λ _ x, elements (mem_suites x)
|}.

(** The same engine, except that it refuses every pandas data source, as an
    engine does that already holds one under the requested name. *)
Definition mem_gx_refusing : GX MemExt string (@DataFrame _ _ mem_pandas) := {|
  DataContext := nat;
  Datasource := nat * string;
  DataAsset := nat * string * string;
  BatchRequest := nat * string * string * Table;
  Validator := nat * string * string * Table * string;
  get_context := get_context (GX:=mem_gx);
  add_or_update_expectation_suite :=
    add_or_update_expectation_suite (GX:=mem_gx);
  add_pandas := λ _ _ x, (inl "datasource already exists", x);
  add_dataframe_asset := add_dataframe_asset (GX:=mem_gx);
  build_batch_request := build_batch_request (GX:=mem_gx);
  get_validator := get_validator (GX:=mem_gx);
  delete_expectation_suite := delete_expectation_suite (GX:=mem_gx);
  list_expectation_suite_names := list_expectation_suite_names (GX:=mem_gx)
|}.

(** A caller's body that deletes the suite [name] behind the instance's back
    and then fails with [e]. *)
Definition body_delete_then_raise (name : string) (e : @exn string)
    : Validator (GX:=mem_gx) → M (@World MemExt string mem_pandas mem_gx) unit :=
  λ _ w,
    (inl e,
     mkWorld (trace w) (snd (delete_expectation_suite (GX:=mem_gx) 0 name (ext w)))).

(** A table of three rows and two columns. *)
Definition table32 : Table := [[1; 2]; [3; 4]; [5; 6]].

(** An outside world with one CSV file, one Parquet file and no suite. *)
Definition mem_ext0 : MemExt :=
  mkMemExt (<["data.csv" := (Csv, table32)]>
            (<["data.parquet" := (Parquet, [[7; 8; 9]])]> ∅))
           ∅ 0.

(** The same, with no call made yet. *)
Definition world0 : @World MemExt string mem_pandas mem_gx :=
  mkWorld [] mem_ext0.

(** A freshly constructed instance over the three-row, two-column table. *)
Definition session0 : @State MemExt string mem_pandas mem_gx :=
  mkState (mkPandasValidations (table32 : DataFrame) "s1" None) world0.

(** The same instance in front of the engine that refuses data sources. *)
Definition session_refused : @State MemExt string mem_pandas mem_gx_refusing :=
  mkState (gx:=mem_gx_refusing)
          (mkPandasValidations (gx:=mem_gx_refusing) (table32 : DataFrame)
                               "s1" None)
          (mkWorld (gx:=mem_gx_refusing) [] mem_ext0).

(** The error a failing body raises in the concrete runs. *)
Definition boom : @exn string := ValueError "boom".

(** * Properties *)

Section Properties.
Context {Ext ExtErr : Type} {pd : Pandas Ext ExtErr}
  {gx : GX Ext ExtErr DataFrame}.

Implicit Types (w : World) (st : State) (name : string).

(** Unfold the monad and the attribute accessors down to plain matches. *)
Ltac unfold_M :=
  cbv [mbind M_bind mret M_ret mthrow M_throw in_world foreign logger_info
       self_context self_df self_gx_suite_name set_self_context].

(** ** Construction *)

Lemma py_in_parquet_csv (s : string) :
  py_in (Some s) ["parquet"; "csv"] = true ↔ s = "parquet" ∨ s = "csv".
Proof.
  simpl. rewrite orb_false_r, orb_true_iff, !String.eqb_eq. reflexivity.
Qed.

Lemma py_in_elem_of (s : string) (l : list string) :
  py_in (Some s) l = true ↔ s ∈ l.
Proof.
  induction l as [|a l IH]; simpl.
  - split; [discriminate | intros H; inversion H].
  - rewrite orb_true_iff, String.eqb_eq, IH, elem_of_cons. reflexivity.
Qed.

Lemma new_events_app w evs x :
  new_events w (mkWorld (trace w ++ evs) x) = evs.
Proof. unfold new_events; simpl. apply drop_app_length. Qed.

(** With a table supplied and a recognised [file_type], the constructor
    returns the table it was given, whatever [file_path] is, and its only
    call is the one to the logger. *)
Lemma init_with_df name (d : DataFrame) (fp : option string) (ft : string) w :
  ft ∈ ["parquet"; "csv"] →
  __init__ name (Some d) fp (Some ft) w
  = (inr (mkPandasValidations d name None),
     mkWorld (trace w ++ [EvLogInfo ("Succefully read dataframe. Shape: "
                                     +:+ str_shape (shape d))])
             (ext w)).
Proof.
  intros Hft%py_in_elem_of. unfold __init__.
  rewrite Hft. reflexivity.
Qed.

(** C1, on the code.  The module's own usage example constructs with a table
    and nothing else, [PandasValidations(expectation_suite_name=..., df=...)];
    on exactly that input the constructor raises: [file_type] is [None],
    [None] is not in the two-element list, and the second guard fires before
    the table is looked at.  No call is made and the world is untouched. *)
Theorem init_df_alone_raises name (d : DataFrame) (fp : option string) w :
  __init__ name (Some d) fp None w
  = (inl (ValueError "file_type must be either parquet or csv"), w).
Proof. reflexivity. Qed.

(** C10.  When a table, a file path and a recognised file type are all
    supplied, construction returns: the instance holds the table that was
    passed in, no reader is called, and the outside world is unchanged. *)
Theorem init_df_takes_precedence
    name (d : DataFrame) (p ft : string) w :
  ft = "parquet" ∨ ft = "csv" →
  ∃ s w',
    __init__ name (Some d) (Some p) (Some ft) w = (inr s, w')
    ∧ df s = d
    ∧ no_file_read w w' = true
    ∧ ext w' = ext w.
Proof.
  intros Hft. eexists _, _. split.
  - apply init_with_df, py_in_elem_of, py_in_parquet_csv, Hft.
  - unfold no_file_read. rewrite new_events_app. auto.
Qed.

(** C3.  With no table, and with the file path or the file type missing, the
    constructor raises its first [ValueError] before anything else happens. *)
Theorem init_underspecified_raises name (fp ft : option string) w :
  fp = None ∨ ft = None →
  __init__ (pd:=pd) name None fp ft w
  = (inl (ValueError "Either df or file_path and file_type must be provided"), w).
Proof.
  intros [-> | ->]; [|destruct fp]; reflexivity.
Qed.

(** Any [file_type] outside the two recognised strings makes the constructor
    raise, whether or not a table or a path came with it. *)
Lemma init_unrecognised_raises
    name (d : option DataFrame) (fp : option string) (ft : string) w :
  ft ∉ ["parquet"; "csv"] →
  raises_ValueError (__init__ name d fp (Some ft) w) = true.
Proof.
  intros Hft. unfold __init__.
  assert (py_in (Some ft) ["parquet"; "csv"] = false) as ->.
  { apply not_true_is_false. rewrite py_in_elem_of. exact Hft. }
  destruct d, fp; reflexivity.
Qed.

(** A reader's failure is never a [ValueError] of the constructor. *)
Lemma foreign_not_ValueError {A} ev (f : Ext → (ExtErr + A) * Ext)
    (k : A → M World PandasValidations) w :
  (∀ a w1, raises_ValueError (k a w1) = false) →
  raises_ValueError ((foreign ev f ≫= k) w) = false.
Proof.
  intros Hk. unfold_M. destruct (f (ext w)) as [[e|a] x]; [reflexivity|].
  apply Hk.
Qed.

(** C2, as the code has it.  Leaving aside a construction that supplies a
    table and no file type, the constructor raises its [ValueError] exactly
    when the file type is supplied and unrecognised, or the table is absent
    and the file path or the file type is missing. *)
Theorem init_raises_iff
    name (d : option DataFrame) (fp ft : option string) w :
  d = None ∨ ft ≠ None →
  raises_ValueError (__init__ name d fp ft w) = true
  ↔ (∃ s, ft = Some s ∧ s ∉ ["parquet"; "csv"])
    ∨ (d = None ∧ (fp = None ∨ ft = None)).
Proof.
  intros Hshape. destruct ft as [s|].
  - destruct (decide (s ∈ ["parquet"; "csv"])) as [Hin|Hout].
    + destruct d as [t|].
      * rewrite init_with_df by done. split; [discriminate|].
        intros [(s' & [= <-] & Hs') | (? & _)]; done.
      * destruct fp as [p|].
        -- assert (raises_ValueError
                     (__init__ name None (Some p) (Some s) w) = false) as ->.
           { unfold __init__. apply py_in_elem_of in Hin as ->. simpl.
             destruct (String.eqb s "parquet");
               apply foreign_not_ValueError; reflexivity. }
           split; [discriminate|].
           intros [(s' & [= <-] & Hs') | (_ & [?|?])]; done.
        -- split; [|reflexivity]. intros _. right. auto.
    + rewrite init_unrecognised_raises by done.
      split; [|reflexivity]. intros _. left. eauto.
  - destruct Hshape as [->|?]; [|done].
    rewrite init_underspecified_raises by auto.
    split; [|reflexivity]. intros _. right. auto.
Qed.

(** C7.  With no table, a path and a recognised file type, the constructor
    makes exactly one read, through the reader the file type names and with
    the path it was given.  What the reader returns becomes the instance's
    table; what the reader raises leaves the constructor as it is. *)
Theorem init_reads_with_implied_reader name (p : string) w :
  (∀ t x, read_parquet (Some p) (ext w) = (inr t, x) →
     __init__ name None (Some p) (Some "parquet") w
     = (inr (mkPandasValidations t name None),
        mkWorld (trace w ++ [EvReadParquet (Some p);
                             EvLogInfo ("Succefully read dataframe. Shape: "
                                        +:+ str_shape (shape t))]) x))
  ∧ (∀ e x, read_parquet (Some p) (ext w) = (inl e, x) →
     __init__ name None (Some p) (Some "parquet") w
     = (inl (Foreign e), mkWorld (trace w ++ [EvReadParquet (Some p)]) x))
  ∧ (∀ t x, read_csv (Some p) (ext w) = (inr t, x) →
     __init__ name None (Some p) (Some "csv") w
     = (inr (mkPandasValidations t name None),
        mkWorld (trace w ++ [EvReadCsv (Some p);
                             EvLogInfo ("Succefully read dataframe. Shape: "
                                        +:+ str_shape (shape t))]) x))
  ∧ (∀ e x, read_csv (Some p) (ext w) = (inl e, x) →
     __init__ name None (Some p) (Some "csv") w
     = (inl (Foreign e), mkWorld (trace w ++ [EvReadCsv (Some p)]) x)).
Proof.
  repeat split; intros r x Hread; unfold __init__; simpl; unfold_M;
    rewrite Hread; simpl; rewrite <- ?app_assoc; reflexivity.
Qed.

(** ** Scoped entry *)

(** What a returning [__enter__] has done, read backwards from its result:
    the six engine calls, each fed with what the previous ones returned. *)
Lemma enter_inv st v st' :
  __enter__ st = (inr v, st') →
  ∃ c ds a br x1 x2 x3 x4 x5,
    get_context (ext (world st)) = (inr c, x1)
    ∧ add_or_update_expectation_suite c (gx_suite_name (self st)) x1 = (inr (), x2)
    ∧ add_pandas c "pandas_datasource" x2 = (inr ds, x3)
    ∧ add_dataframe_asset ds "df_asset" x3 = (inr a, x4)
    ∧ build_batch_request a (df (self st)) x4 = (inr br, x5)
    ∧ get_validator c br (gx_suite_name (self st)) x5 = (inr v, ext (world st'))
    ∧ self st' = mkPandasValidations (df (self st)) (gx_suite_name (self st)) (Some c)
    ∧ trace (world st')
      = trace (world st)
        ++ [EvGetContext;
            EvAddOrUpdateSuite c (gx_suite_name (self st));
            EvAddPandas c "pandas_datasource";
            EvAddDataframeAsset ds "df_asset";
            EvBuildBatchRequest a (df (self st));
            EvGetValidator c br (gx_suite_name (self st))].
Proof.
  unfold __enter__. unfold_M. simpl.
  destruct (get_context _) as [[e|c] x1] eqn:H1; [discriminate|]. simpl.
  destruct (add_or_update_expectation_suite _ _ _) as [[e|[]] x2] eqn:H2;
    [discriminate|]. simpl.
  destruct (add_pandas _ _ _) as [[e|ds] x3] eqn:H3; [discriminate|]. simpl.
  destruct (add_dataframe_asset _ _ _) as [[e|a] x4] eqn:H4;
    [discriminate|]. simpl.
  destruct (build_batch_request _ _ _) as [[e|br] x5] eqn:H5;
    [discriminate|]. simpl.
  destruct (get_validator _ _ _ _) as [[e|v'] x6] eqn:H6; [discriminate|].
  intros [= <- <-]. simpl.
  exists c, ds, a, br, x1, x2, x3, x4, x5.
  rewrite <- !app_assoc. simpl. auto 10.
Qed.

(** C6.  When the engine answers each call, [__enter__] makes exactly these
    calls in exactly this order: it asks for a context, registers the suite
    under the instance's name in that context, adds a pandas data source and a
    dataframe asset to it, builds a batch request from the asset and the
    instance's table, and asks the context for a validator over that batch
    request and the same suite name.  It returns that validator and keeps the
    context on the instance. *)
Theorem enter_calls_in_order st c ds a br v x1 x2 x3 x4 x5 x6 :
  let name := gx_suite_name (self st) in
  get_context (ext (world st)) = (inr c, x1) →
  add_or_update_expectation_suite c name x1 = (inr (), x2) →
  add_pandas c "pandas_datasource" x2 = (inr ds, x3) →
  add_dataframe_asset ds "df_asset" x3 = (inr a, x4) →
  build_batch_request a (df (self st)) x4 = (inr br, x5) →
  get_validator c br name x5 = (inr v, x6) →
  __enter__ st
  = (inr v,
     mkState (mkPandasValidations (df (self st)) name (Some c))
             (mkWorld (trace (world st)
                       ++ [EvGetContext;
                           EvAddOrUpdateSuite c name;
                           EvAddPandas c "pandas_datasource";
                           EvAddDataframeAsset ds "df_asset";
                           EvBuildBatchRequest a (df (self st));
                           EvGetValidator c br name])
                      x6)).
Proof.
  intros name H1 H2 H3 H4 H5 H6. unfold __enter__. unfold_M. simpl.
  rewrite H1. simpl. fold name. rewrite H2. simpl. rewrite H3. simpl.
  rewrite H4. simpl. rewrite H5. simpl. rewrite H6. simpl.
  rewrite <- !app_assoc. reflexivity.
Qed.

(** ** Scoped exit *)

(** On an instance that holds a context, [__exit__] is one call to
    [delete_expectation_suite] and nothing else; its own result is [None]. *)
Lemma exit_with_context exc st c :
  context (self st) = Some c →
  __exit__ exc st
  = (match fst (delete_expectation_suite c (gx_suite_name (self st))
                                         (ext (world st))) with
     | inl e => inl (Foreign e)
     | inr _ => inr PyNone
     end,
     mkState (self st)
       (mkWorld (trace (world st) ++ [EvDeleteSuite c (gx_suite_name (self st))])
                (snd (delete_expectation_suite c (gx_suite_name (self st))
                                               (ext (world st)))))).
Proof.
  intros Hc. unfold __exit__. unfold_M. rewrite Hc. simpl.
  destruct (delete_expectation_suite _ _ _) as [[e|[]] x]; reflexivity.
Qed.

(** On an instance that was never entered there is no context to read. *)
Lemma exit_without_context exc st :
  context (self st) = None →
  __exit__ exc st
  = (inl (AttributeError
            "'PandasValidations' object has no attribute 'context'"), st).
Proof. intros Hc. unfold __exit__. unfold_M. rewrite Hc. reflexivity. Qed.

Lemma exit_keeps_self exc st : self (snd (__exit__ exc st)) = self st.
Proof.
  destruct (context (self st)) as [c|] eqn:Hc.
  - rewrite (exit_with_context exc st c Hc). reflexivity.
  - rewrite (exit_without_context exc st Hc). reflexivity.
Qed.

(** C8.  [__exit__] leaves the instance exactly as it found it, context
    handle included, and the only call it makes is the deletion of the suite
    under the instance's name in the held context: the outside world moves
    by that one call and by nothing else.  Nothing is called on the context
    to close or discard it. *)
Theorem exit_deletes_suite_only exc st :
  self (snd (__exit__ exc st)) = self st
  ∧ match context (self st) with
    | Some c =>
        new_events (world st) (world (snd (__exit__ exc st)))
        = [EvDeleteSuite c (gx_suite_name (self st))]
        ∧ ext (world (snd (__exit__ exc st)))
          = snd (delete_expectation_suite c (gx_suite_name (self st))
                                          (ext (world st)))
    | None => world (snd (__exit__ exc st)) = world st
    end.
Proof.
  split; [apply exit_keeps_self|].
  destruct (context (self st)) as [c|] eqn:Hc.
  - rewrite (exit_with_context exc st c Hc). simpl.
    rewrite new_events_app. auto.
  - rewrite (exit_without_context exc st Hc). reflexivity.
Qed.

(** ** The table never moves *)

Lemma enter_keeps_df st : df (self (snd (__enter__ st))) = df (self st).
Proof.
  unfold __enter__. unfold_M. simpl.
  repeat match goal with
         | |- context [match ?f ?x with _ => _ end] =>
             destruct (f x) as [[?|?] ?]; simpl
         end; reflexivity.
Qed.

Lemma exit_keeps_df exc st : df (self (snd (__exit__ exc st))) = df (self st).
Proof. rewrite exit_keeps_self. reflexivity. Qed.

Lemma call_keeps_df k st : df (self (call k st)) = df (self st).
Proof. destruct k; [apply enter_keeps_df | apply exit_keeps_df]. Qed.

(** C9.  Once constructed, an instance keeps its table: after any sequence
    of [__enter__] and [__exit__] calls, returning or raising, and after a
    whole [with] statement around any body, the [df] field is the one the
    instance started with. *)
Theorem df_never_modified :
  (∀ ks st, df (self (calls ks st)) = df (self st))
  ∧ (∀ body st, df (self (snd (with_stmt body st))) = df (self st)).
Proof.
  split.
  - intros ks. unfold calls.
    induction ks as [|k ks IH]; intros st; simpl.
    + reflexivity.
    + rewrite IH. apply call_keeps_df.
  - intros body st. unfold with_stmt.
    pose proof (enter_keeps_df st) as He.
    destruct (__enter__ st) as [[e|v] st1]; simpl in He; [exact He|].
    unfold in_world at 1.
    destruct (body v (world st1)) as [[e|[]] w2].
    + pose proof (exit_keeps_df (Some e) (mkState (self st1) w2)) as Hx.
      destruct (__exit__ (Some e) _) as [[e'|r] st3]; simpl in Hx.
      * simpl. congruence.
      * destruct (truthy r); simpl; congruence.
    + pose proof (exit_keeps_df None (mkState (self st1) w2)) as Hx.
      unfold_M.
      destruct (__exit__ None _) as [[e'|r] st3]; simpl in *; congruence.
Qed.

(** ** The [with] statement around the class *)

(** A returning [__enter__] leaves the context it obtained on the instance
    and does not rename the suite. *)
Lemma enter_holds_context st v st1 :
  __enter__ st = (inr v, st1) →
  ∃ c, context (self st1) = Some c
       ∧ gx_suite_name (self st1) = gx_suite_name (self st).
Proof.
  intros (c & ? & ? & ? & ? & ? & ? & ? & ? & _ & _ & _ & _ & _ & _ & Hs & _)
    %enter_inv.
  exists c. rewrite Hs. auto.
Qed.

(** The [with] statement after a returning [__enter__] and a raising body:
    [__exit__] runs on the world the body left, and since it returns [None]
    the statement ends with the body's exception unless the deletion itself
    raised. *)
Lemma with_stmt_body_raises body st v st1 e w2 c :
  __enter__ st = (inr v, st1) →
  context (self st1) = Some c →
  body v (world st1) = (inl e, w2) →
  with_stmt body st
  = (match fst (delete_expectation_suite c (gx_suite_name (self st1)) (ext w2))
     with
     | inl e' => inl (Foreign e')
     | inr _ => inl e
     end,
     mkState (self st1)
       (mkWorld (trace w2 ++ [EvDeleteSuite c (gx_suite_name (self st1))])
                (snd (delete_expectation_suite c (gx_suite_name (self st1))
                                               (ext w2))))).
Proof.
  intros He Hc Hb. unfold with_stmt. rewrite He.
  unfold in_world at 1. rewrite Hb.
  rewrite (exit_with_context _ _ c) by exact Hc. simpl.
  destruct (fst (delete_expectation_suite _ _ _)); reflexivity.
Qed.

(** C4.  When the body of the [with] statement raises [e] after a returning
    [__enter__], [__exit__] still calls [delete_expectation_suite] with the
    instance's suite name on the context the instance holds, in the world the
    body left behind; and once that deletion returns, the statement ends by
    raising [e] itself: [__exit__] returns [None], so [e] is neither swallowed
    nor replaced. *)
Theorem with_stmt_cleans_up_and_reraises body st v st1 e w2 c x3 :
  __enter__ st = (inr v, st1) →
  context (self st1) = Some c →
  body v (world st1) = (inl e, w2) →
  delete_expectation_suite c (gx_suite_name (self st)) (ext w2) = (inr (), x3) →
  with_stmt body st
  = (inl e,
     mkState (self st1)
       (mkWorld (trace w2 ++ [EvDeleteSuite c (gx_suite_name (self st))]) x3)).
Proof.
  intros He Hc Hb Hd.
  destruct (enter_holds_context _ _ _ He) as (c' & _ & Hname).
  rewrite (with_stmt_body_raises body st v st1 e w2 c He Hc Hb).
  rewrite Hname, Hd. reflexivity.
Qed.

(** C5.  Over an engine whose returning deletions remove the name: when a
    [with] statement with an empty body runs to its end, the context held by
    the instance lists no suite under the instance's name. *)
Theorem enter_exit_round_trip `{!GXDeletes gx} st st' :
  with_stmt body_pass st = (inr (), st') →
  ∃ c, context (self st') = Some c
       ∧ gx_suite_name (self st)
         ∉ list_expectation_suite_names c (ext (world st')).
Proof.
  unfold with_stmt.
  destruct (__enter__ st) as [[e|v] st1] eqn:He; [discriminate|].
  destruct (enter_holds_context _ _ _ He) as (c & Hc & Hname).
  unfold in_world at 1, body_pass. unfold_M.
  rewrite (exit_with_context None _ c) by exact Hc. simpl.
  destruct (delete_expectation_suite _ _ _) as [[e|[]] x] eqn:Hd;
    [discriminate|].
  simpl. intros [= <-]. simpl. exists c. split; [exact Hc|].
  rewrite <- Hname. exact (delete_removes _ _ _ _ Hd).
Qed.

End Properties.

(** * Concrete runs on the in-memory collaborators *)

(** The in-memory engine removes what it deletes. *)
#[global] Instance mem_gx_deletes : GXDeletes mem_gx.
Proof.
  intros c name x x'. simpl. unfold mem_needs_suite.
  destruct (decide (name ∈ mem_suites x)); intros [= <-]; simpl.
  rewrite elem_of_elements, elem_of_difference, elem_of_singleton.
  intros [_ Hne]. exact (Hne eq_refl).
Qed.

Lemma init_df_takes_precedence_witness :
  ("csv" = "parquet" ∨ "csv" = "csv")
  ∧ ∃ s w',
      __init__ "s1" (Some (table32 : DataFrame)) (Some "data.csv") (Some "csv")
               world0 = (inr s, w')
      ∧ df s = table32
      ∧ no_file_read world0 w' = true
      ∧ ext w' = ext world0.
Proof.
  assert ("csv" = "parquet" ∨ "csv" = "csv") as H by (right; reflexivity).
  split; [exact H|].
  exact (init_df_takes_precedence "s1" (table32 : DataFrame) "data.csv" "csv"
           world0 H).
Defined.

Lemma init_underspecified_raises_witness :
  (Some "data.csv" = None ∨ None = None (A:=string))
  ∧ __init__ "s1" None (Some "data.csv") None world0
    = (inl (ValueError "Either df or file_path and file_type must be provided"),
       world0).
Proof.
  assert (Some "data.csv" = None ∨ None = None (A:=string)) as H
    by (right; reflexivity).
  split; [exact H|].
  exact (init_underspecified_raises "s1" (Some "data.csv") None world0 H).
Defined.

Lemma init_raises_iff_witness :
  (None (A:=DataFrame (Pandas:=mem_pandas)) = None ∨ Some "json" ≠ None)
  ∧ (raises_ValueError
       (__init__ "s1" None (Some "data.csv") (Some "json") world0) = true
     ↔ (∃ s, Some "json" = Some s ∧ s ∉ ["parquet"; "csv"])
       ∨ (None (A:=DataFrame (Pandas:=mem_pandas)) = None
          ∧ (Some "data.csv" = None ∨ Some "json" = None))).
Proof.
  assert (None (A:=DataFrame (Pandas:=mem_pandas)) = None ∨ Some "json" ≠ None)
    as H by (left; reflexivity).
  split; [exact H|].
  exact (init_raises_iff "s1" None (Some "data.csv") (Some "json") world0 H).
Defined.

Lemma enter_calls_in_order_witness :
  ∃ v st', __enter__ session0 = (inr v, st')
           ∧ new_events (world session0) (world st')
             = [EvGetContext;
                EvAddOrUpdateSuite 0 "s1";
                EvAddPandas 0 "pandas_datasource";
                EvAddDataframeAsset (0, "pandas_datasource") "df_asset";
                EvBuildBatchRequest (0, "pandas_datasource", "df_asset") table32;
                EvGetValidator 0 (0, "pandas_datasource", "df_asset", table32)
                               "s1"].
Proof.
  eexists _, _. split.
  - eapply (enter_calls_in_order session0); reflexivity.
  - reflexivity.
Defined.

Lemma with_stmt_cleans_up_and_reraises_witness :
  ∃ st', with_stmt (body_raise boom) session0 = (inl boom, st')
         ∧ list_expectation_suite_names 0 (ext (world st')) = [].
Proof.
  eexists. split.
  - eapply (with_stmt_cleans_up_and_reraises (body_raise boom) session0);
      reflexivity.
  - reflexivity.
Defined.

Lemma enter_exit_round_trip_witness :
  with_stmt body_pass session0
  = (inr (), snd (with_stmt body_pass session0))
  ∧ ∃ c, context (self (snd (with_stmt body_pass session0))) = Some c
         ∧ "s1" ∉ list_expectation_suite_names
                    c (ext (world (snd (with_stmt body_pass session0)))).
Proof.
  assert (with_stmt body_pass session0
          = (inr (), snd (with_stmt body_pass session0))) as H
    by reflexivity.
  split; [exact H|].
  exact (enter_exit_round_trip session0 _ H).
Defined.

(** C2 as stated fails on the code: with no table and no file type the
    constructor raises its [ValueError] although no file type was supplied. *)
Lemma init_raises_without_file_type :
  ¬ (raises_ValueError
       (__init__ "s1" None (Some "data.csv") None world0) = true
     ↔ ∃ s, None = Some s ∧ s ∉ ["parquet"; "csv"]).
Proof.
  intros [Hraised _].
  destruct (Hraised eq_refl) as (s & Hs & _). discriminate Hs.
Qed.

(** The usage example of the module's own documentation, a suite name and a
    table and nothing else, does not construct. *)
Example documented_usage_raises :
  fst (__init__ "my_expectations" (Some (table32 : DataFrame)) None None world0)
  = inl (ValueError "file_type must be either parquet or csv").
Proof. reflexivity. Qed.

(** Reading the CSV file: one call to the CSV reader, then the log line with
    the shape of what was read. *)
Example run_init_csv :
  __init__ "s1" None (Some "data.csv") (Some "csv") world0
  = (inr (mkPandasValidations (table32 : DataFrame) "s1" None),
     mkWorld [EvReadCsv (Some "data.csv");
              EvLogInfo "Succefully read dataframe. Shape: (3, 2)"]
             mem_ext0).
Proof. reflexivity. Qed.

(** The Parquet reader is the one asked when the file type says so: pointed
    at the CSV file it fails, and the failure leaves the constructor. *)
Example run_init_parquet_on_csv_file :
  __init__ "s1" None (Some "data.csv") (Some "parquet") world0
  = (inl (Foreign "Could not parse file"),
     mkWorld [EvReadParquet (Some "data.csv")] mem_ext0).
Proof. reflexivity. Qed.

(** Three rows, two columns, suite [s1]: the scope is entered and left, and
    the engine lists no suite afterwards. *)
Example run_scenario_s1 :
  fst (with_stmt body_pass session0) = inr ()
  ∧ list_expectation_suite_names
      0 (ext (world (snd (with_stmt body_pass session0)))) = [].
Proof. split; reflexivity. Qed.

(** When the deletion itself fails, here because the body had already
    deleted the suite, the engine's error is what leaves the [with]
    statement, not the body's. *)
Example run_cleanup_failure_masks :
  fst (with_stmt (body_delete_then_raise "s1" boom) session0)
  = inl (Foreign "expectation_suite not found").
Proof. reflexivity. Qed.

(** [__exit__] on an instance that was never entered has no context to
    delete from. *)
Example run_exit_before_enter :
  fst (__exit__ None session0)
  = inl (AttributeError "'PandasValidations' object has no attribute 'context'").
Proof. reflexivity. Qed.

(** * Further properties of the three methods *)

Section FurtherProperties.
Context {Ext ExtErr : Type} {pd : Pandas Ext ExtErr}
  {gx : GX Ext ExtErr DataFrame}.

Implicit Types (w : World) (st : State) (name : string).

Ltac unfold_M :=
  cbv [mbind M_bind mret M_ret mthrow M_throw in_world foreign logger_info
       self_context self_df self_gx_suite_name set_self_context].

(** ** Every way the constructor can end *)

Lemma init_outcomes name d fp ft w :
  init_outcome name d w (__init__ name d fp ft w).
Proof.
  unfold __init__.
  destruct (is_none d && (is_none fp || is_none ft)); [constructor|].
  destruct (negb (py_in ft ["parquet"; "csv"])); [constructor|].
  destruct d as [t|].
  - apply InitGiven. reflexivity.
  - destruct (py_eq ft "parquet"); unfold_M; simpl.
    + destruct (read_parquet fp (ext w)) as [[e|t] x]; simpl.
      * apply InitReadFailed; reflexivity.
      * rewrite <- app_assoc. apply InitRead; reflexivity.
    + destruct (read_csv fp (ext w)) as [[e|t] x]; simpl.
      * apply InitReadFailed; reflexivity.
      * rewrite <- app_assoc. apply InitRead; reflexivity.
Qed.

(** X1.  Validation comes before every effect: whenever the constructor
    raises a [ValueError] of its own, no reader was called, nothing was
    logged and the outside world is the one it started in. *)
Theorem init_ValueError_before_effects
    name (d : option DataFrame) (fp ft : option string) w :
  raises_ValueError (__init__ name d fp ft w) = true →
  snd (__init__ name d fp ft w) = w.
Proof.
  destruct (init_outcomes name d fp ft w); simpl;
    solve [reflexivity | discriminate].
Qed.

(** X2.  With a table supplied the constructor never calls a reader and
    never changes the outside world, whatever path and file type come with
    the table and whether it returns or raises. *)
Theorem init_with_df_never_reads
    name (t : DataFrame) (fp ft : option string) w :
  no_file_read w (snd (__init__ name (Some t) fp ft w)) = true
  ∧ ext (snd (__init__ name (Some t) fp ft w)) = ext w.
Proof.
  destruct (init_outcomes name (Some t) fp ft w) as [msg|t' _|? ? ? [=]|? ? ? [=]];
    simpl.
  - unfold no_file_read, new_events. rewrite drop_all. auto.
  - unfold no_file_read. rewrite new_events_app. auto.
Qed.

(** X3.  The constructor never calls the validation engine, and it reads at
    most one file: over all inputs and outcomes, none of the calls it makes is
    an engine call and at most one of them is a file read. *)
Theorem init_never_calls_engine
    name (d : option DataFrame) (fp ft : option string) w :
  Forall (λ ev, is_engine_call ev = false)
         (new_events w (snd (__init__ name d fp ft w)))
  ∧ length (List.filter is_file_read
              (new_events w (snd (__init__ name d fp ft w)))) ≤ 1.
Proof.
  destruct (init_outcomes name d fp ft w) as [msg|t _|ev e x _ Hev|ev t x _ Hev];
    simpl.
  - unfold new_events. rewrite drop_all. simpl. split; [constructor | lia].
  - rewrite new_events_app. simpl. split; [repeat constructor | lia].
  - rewrite new_events_app. simpl. rewrite Hev. simpl.
    split; [|lia]. destruct ev; try discriminate; repeat constructor.
  - rewrite new_events_app. simpl. rewrite Hev. simpl.
    split; [|lia]. destruct ev; try discriminate; repeat constructor.
Qed.

(** X4.  What a returning constructor leaves: the instance carries the suite
    name it was given and holds no context yet; its table is the supplied one
    when one was supplied; and the last call made is the log line with the
    shape of that very table, the only log line of the construction. *)
Theorem init_returns_post
    name (d : option DataFrame) (fp ft : option string) w s w' :
  __init__ name d fp ft w = (inr s, w') →
  gx_suite_name s = name
  ∧ context s = None
  ∧ (∀ t, d = Some t → df s = t)
  ∧ ∃ evs, new_events w w' = evs ++ [shape_log (df s)]
           ∧ Forall (λ ev, is_log ev = false) evs.
Proof.
  intros Hinit.
  destruct (init_outcomes name d fp ft w) as [msg|t Hd|ev e x _ Hev|ev t x Hd Hev];
    try discriminate Hinit; injection Hinit as <- <-; simpl.
  - repeat split; [congruence|].
    exists []. rewrite new_events_app. auto.
  - repeat split; [congruence|].
    exists [ev]. rewrite new_events_app. split; [reflexivity|].
    destruct ev; try discriminate; repeat constructor.
Qed.

(** X5.  The constructor stores the suite name without looking at it: with
    any other name, the empty string included, it ends the same way, in the
    same world, and a returned instance differs in the stored name only. *)
Theorem init_ignores_suite_name
    name name' (d : option DataFrame) (fp ft : option string) w :
  __init__ name' d fp ft w
  = (match fst (__init__ name d fp ft w) with
     | inl e => inl e
     | inr s => inr (with_suite_name name' s)
     end,
     snd (__init__ name d fp ft w)).
Proof.
  unfold __init__.
  destruct (is_none d && (is_none fp || is_none ft)); [reflexivity|].
  destruct (negb (py_in ft ["parquet"; "csv"])); [reflexivity|].
  destruct d as [t|]; [reflexivity|].
  destruct (py_eq ft "parquet"); unfold_M; simpl.
  - destruct (read_parquet fp (ext w)) as [[e|t] x]; reflexivity.
  - destruct (read_csv fp (ext w)) as [[e|t] x]; reflexivity.
Qed.

(** ** Every way scoped entry can end *)

(** Every call [__enter__] makes is one of its six engine calls. *)
Lemma enter_events_are_enter_calls st :
  Forall (λ ev, is_enter_call ev = true)
         (new_events (world st) (world (snd (__enter__ st)))).
Proof.
  unfold __enter__. unfold_M. simpl.
  repeat match goal with
         | |- context [match ?f ?x with _ => _ end] =>
             destruct (f x) as [[?|?] ?]; simpl
         end;
    rewrite <- ?app_assoc; simpl; rewrite new_events_app;
    repeat constructor.
Qed.

(** X6.  [__enter__] talks to the engine and to nothing else: whether it
    returns or raises, each call it made is one of the engine calls of scoped
    entry (never a deletion, a file read or a log line), there are at most six
    of them, and an exception that leaves it is always the engine's own, never
    an error of the module. *)
Theorem enter_only_calls_engine st :
  Forall (λ ev, is_enter_call ev = true)
         (new_events (world st) (world (snd (__enter__ st))))
  ∧ length (new_events (world st) (world (snd (__enter__ st)))) ≤ 6
  ∧ ∀ e, fst (__enter__ st) = inl e → ∃ e', e = Foreign e'.
Proof.
  split; [apply enter_events_are_enter_calls|].
  unfold __enter__. unfold_M. simpl.
  repeat match goal with
         | |- context [match ?f ?x with _ => _ end] =>
             destruct (f x) as [[?|?] ?]; simpl
         end;
    rewrite <- ?app_assoc; simpl; rewrite new_events_app;
    (split; [simpl; lia|]); intros e' [=]; eauto.
Qed.

(** X7.  The context is stored on the instance before anything is
    registered in it: once [get_context] has returned [c], the instance holds
    [c] after [__enter__] even when a later engine call makes [__enter__]
    raise. *)
Theorem enter_holds_context_even_on_failure st c x1 :
  get_context (ext (world st)) = (inr c, x1) →
  context (self (snd (__enter__ st))) = Some c.
Proof.
  intros Hc. unfold __enter__. unfold_M. simpl. rewrite Hc. simpl.
  repeat match goal with
         | |- context [match ?f ?x with _ => _ end] =>
             destruct (f x) as [[?|?] ?]; simpl
         end; reflexivity.
Qed.

(** ** The [with] statement, the other ways *)

(** X8.  When [__enter__] raises, the [with] statement ends there with the
    same exception: the body does not run and [__exit__] is not called, so no
    deletion is attempted, not even for a suite that [__enter__] had already
    registered. *)
Theorem with_stmt_enter_fails body st e st1 :
  __enter__ st = (inl e, st1) →
  with_stmt body st = (inl e, st1)
  ∧ Forall (λ ev, is_delete_suite ev = false)
           (new_events (world st) (world (snd (with_stmt body st)))).
Proof.
  intros He.
  assert (with_stmt body st = (inl e, st1)) as Hw
    by (unfold with_stmt; rewrite He; reflexivity).
  split; [exact Hw|]. rewrite Hw. simpl.
  pose proof (enter_events_are_enter_calls st) as Hcalls.
  rewrite He in Hcalls. simpl in Hcalls.
  eapply Forall_impl; [exact Hcalls|].
  intros ev. unfold is_enter_call.
  destruct (is_delete_suite ev); [rewrite andb_false_r; discriminate | reflexivity].
Qed.

(** X9.  A body's exception is never swallowed: after a returning
    [__enter__] and a raising body, the [with] statement always ends with an
    exception, and exactly one call, the deletion of the instance's suite in
    the held context, was made after the body stopped. *)
Theorem with_stmt_never_swallows body st v st1 e w2 :
  __enter__ st = (inr v, st1) →
  body v (world st1) = (inl e, w2) →
  (∃ e', fst (with_stmt body st) = inl e')
  ∧ ∃ c, context (self st1) = Some c
         ∧ new_events w2 (world (snd (with_stmt body st)))
           = [EvDeleteSuite c (gx_suite_name (self st))].
Proof.
  intros He Hb.
  destruct (enter_holds_context _ _ _ He) as (c & Hc & Hname).
  rewrite (with_stmt_body_raises body st v st1 e w2 c He Hc Hb). simpl.
  split.
  - destruct (fst (delete_expectation_suite _ _ _)); eauto.
  - exists c. rewrite new_events_app, Hname. auto.
Qed.

(** X10.  After a returning [__enter__] and a returning body, the deletion
    runs once, on the world the body left, and decides how the [with]
    statement ends: it returns when the deletion returns, and raises the
    engine's error when the deletion fails, although the body succeeded. *)
Theorem with_stmt_body_returns body st v st1 w2 :
  __enter__ st = (inr v, st1) →
  body v (world st1) = (inr (), w2) →
  ∃ c, context (self st1) = Some c
    ∧ with_stmt body st
      = (match fst (delete_expectation_suite c (gx_suite_name (self st))
                                             (ext w2)) with
         | inl e' => inl (Foreign e')
         | inr _ => inr ()
         end,
         mkState (self st1)
           (mkWorld (trace w2 ++ [EvDeleteSuite c (gx_suite_name (self st))])
                    (snd (delete_expectation_suite
                            c (gx_suite_name (self st)) (ext w2))))).
Proof.
  intros He Hb.
  destruct (enter_holds_context _ _ _ He) as (c & Hc & Hname).
  exists c. split; [exact Hc|].
  unfold with_stmt. rewrite He. unfold in_world at 1. rewrite Hb.
  unfold mbind, M_bind.
  rewrite (exit_with_context None _ c) by exact Hc. simpl. rewrite Hname.
  destruct (fst (delete_expectation_suite _ _ _)); reflexivity.
Qed.

(** ** What any use of an instance keeps *)

Lemma enter_keeps_suite_name st :
  gx_suite_name (self (snd (__enter__ st))) = gx_suite_name (self st).
Proof.
  unfold __enter__. unfold_M. simpl.
  repeat match goal with
         | |- context [match ?f ?x with _ => _ end] =>
             destruct (f x) as [[?|?] ?]; simpl
         end; reflexivity.
Qed.

Lemma enter_keeps_context_held st :
  is_Some (context (self st)) →
  is_Some (context (self (snd (__enter__ st)))).
Proof.
  intros Hheld. unfold __enter__. unfold_M. simpl.
  repeat match goal with
         | |- context [match ?f ?x with _ => _ end] =>
             destruct (f x) as [[?|?] ?]; simpl
         end; eauto.
Qed.

(** X11.  The suite name of an instance never changes and a held context is
    never dropped: after any sequence of [__enter__] and [__exit__] calls,
    returning or raising, the instance carries the name it was constructed
    with, and if it held a context before it holds one after.  So every
    [__exit__] deletes under the name every [__enter__] registered. *)
Theorem calls_keep_name_and_context (ks : list Call) st :
  gx_suite_name (self (calls ks st)) = gx_suite_name (self st)
  ∧ (is_Some (context (self st)) → is_Some (context (self (calls ks st)))).
Proof.
  unfold calls. revert st.
  induction ks as [|k ks IH]; intros st; simpl; [auto|].
  destruct (IH (call k st)) as [IHname IHctx].
  assert (gx_suite_name (self (call k st)) = gx_suite_name (self st)
          ∧ (is_Some (context (self st)) → is_Some (context (self (call k st)))))
    as [Hname Hctx].
  { destruct k as [|exc]; simpl.
    - split; [apply enter_keeps_suite_name | apply enter_keeps_context_held].
    - rewrite exit_keeps_self. auto. }
  split; [congruence | auto].
Qed.

(** X12.  An instance that was constructed but never entered cannot be
    exited: on what a returning constructor hands back, [__exit__] raises
    [AttributeError] for the missing [context], calls nothing and leaves
    instance and world as they were. *)
Theorem exit_right_after_init
    name (d : option DataFrame) (fp ft : option string) w s w' exc :
  __init__ name d fp ft w = (inr s, w') →
  __exit__ exc (mkState s w')
  = (inl (AttributeError
            "'PandasValidations' object has no attribute 'context'"),
     mkState s w').
Proof.
  intros Hinit. apply exit_without_context. simpl.
  destruct (init_outcomes name d fp ft w); try discriminate Hinit;
    injection Hinit as <- <-; reflexivity.
Qed.

(** X13.  Registration and deletion are paired: after a returning
    [__enter__], whichever way the body ends, the suite deleted on the way out
    is the suite registered on the way in, in the same context and under the
    same name, and the deletion is the last call of the statement. *)
Theorem with_stmt_deletes_what_it_registered body st v st1 r w2 :
  __enter__ st = (inr v, st1) →
  body v (world st1) = (r, w2) →
  ∃ c evs,
    new_events (world st) (world st1)
    = EvGetContext :: EvAddOrUpdateSuite c (gx_suite_name (self st)) :: evs
    ∧ trace (world (snd (with_stmt body st)))
      = trace w2 ++ [EvDeleteSuite c (gx_suite_name (self st))].
Proof.
  intros He Hb.
  destruct (enter_inv _ _ _ He)
    as (c & ds & a & br & x1 & x2 & x3 & x4 & x5
        & _ & _ & _ & _ & _ & _ & Hself & Htrace).
  assert (context (self st1) = Some c) as Hc by (rewrite Hself; reflexivity).
  assert (gx_suite_name (self st1) = gx_suite_name (self st)) as Hname
    by (rewrite Hself; reflexivity).
  exists c. eexists. split.
  - unfold new_events. rewrite Htrace, drop_app_length. reflexivity.
  - unfold with_stmt. rewrite He. unfold in_world at 1. rewrite Hb.
    destruct r as [e|[]].
    + rewrite (exit_with_context _ _ c) by exact Hc. simpl. rewrite Hname.
      destruct (fst (delete_expectation_suite _ _ _)); reflexivity.
    + unfold mbind, M_bind.
      rewrite (exit_with_context _ _ c) by exact Hc. simpl. rewrite Hname.
      destruct (fst (delete_expectation_suite _ _ _)); reflexivity.
Qed.

End FurtherProperties.

(** ** Concrete runs of the further properties *)

Lemma init_ValueError_before_effects_witness :
  snd (__init__ "s1" None None (Some "csv") world0) = world0.
Proof.
  apply (init_ValueError_before_effects "s1" None None (Some "csv") world0).
  reflexivity.
Defined.

Lemma init_returns_post_witness :
  gx_suite_name (mkPandasValidations (table32 : DataFrame) "s1" None) = "s1"
  ∧ context (mkPandasValidations (table32 : DataFrame) "s1" None) = None
  ∧ (∀ t, Some table32 = Some t → table32 = t)
  ∧ ∃ evs,
      new_events world0
        (snd (__init__ "s1" (Some (table32 : DataFrame)) None (Some "csv")
                       world0))
      = evs ++ [shape_log (table32 : DataFrame)]
      ∧ Forall (λ ev, is_log ev = false) evs.
Proof.
  apply (init_returns_post (pd:=mem_pandas) (gx:=mem_gx)
           "s1" (Some table32) None (Some "csv") world0
           (mkPandasValidations (pd:=mem_pandas) (gx:=mem_gx) table32 "s1" None)).
  reflexivity.
Defined.

Lemma enter_holds_context_even_on_failure_witness :
  (∃ e, fst (__enter__ session_refused) = inl e)
  ∧ context (self (snd (__enter__ session_refused))) = Some 0.
Proof.
  split; [eexists; reflexivity|].
  eapply (enter_holds_context_even_on_failure session_refused 0).
  reflexivity.
Defined.

Lemma with_stmt_enter_fails_witness :
  fst (with_stmt body_pass session_refused)
  = inl (Foreign "datasource already exists")
  ∧ Forall (λ ev, is_delete_suite ev = false)
           (new_events (world session_refused)
                       (world (snd (with_stmt body_pass session_refused)))).
Proof.
  destruct (with_stmt_enter_fails body_pass session_refused
              (Foreign "datasource already exists")
              (snd (__enter__ session_refused)) eq_refl) as [Hw Hnone].
  split; [rewrite Hw; reflexivity | exact Hnone].
Defined.

Lemma with_stmt_never_swallows_witness :
  (∃ e', fst (with_stmt (body_raise boom) session0) = inl e')
  ∧ ∃ c, context (self (snd (__enter__ session0))) = Some c
         ∧ new_events (world (snd (__enter__ session0)))
                      (world (snd (with_stmt (body_raise boom) session0)))
           = [EvDeleteSuite c "s1"].
Proof.
  eapply (with_stmt_never_swallows (body_raise boom) session0); reflexivity.
Defined.

Lemma with_stmt_body_returns_witness :
  ∃ c, context (self (snd (__enter__ session0))) = Some c
       ∧ fst (with_stmt body_pass session0) = inr ().
Proof.
  destruct (with_stmt_body_returns body_pass session0 _
              (snd (__enter__ session0)) (world (snd (__enter__ session0)))
              eq_refl eq_refl) as (c & Hc & Hw).
  exists c. split; [exact Hc|]. rewrite Hw.
  injection Hc as <-. reflexivity.
Defined.

Lemma exit_right_after_init_witness :
  fst (__exit__ None
         (mkState (mkPandasValidations (table32 : DataFrame) "s1" None)
            (snd (__init__ "s1" (Some (table32 : DataFrame)) None (Some "csv")
                           world0))))
  = inl (AttributeError "'PandasValidations' object has no attribute 'context'").
Proof.
  exact (f_equal fst
           (exit_right_after_init (pd:=mem_pandas) (gx:=mem_gx)
              "s1" (Some table32) None (Some "csv") world0
              (mkPandasValidations (pd:=mem_pandas) (gx:=mem_gx)
                                   table32 "s1" None)
              (snd (__init__ "s1" (Some table32) None (Some "csv") world0))
              None eq_refl)).
Defined.

Lemma with_stmt_deletes_what_it_registered_witness :
  ∃ c evs,
    new_events (world session0) (world (snd (__enter__ session0)))
    = EvGetContext :: EvAddOrUpdateSuite c "s1" :: evs
    ∧ trace (world (snd (with_stmt (body_raise boom) session0)))
      = trace (world (snd (__enter__ session0))) ++ [EvDeleteSuite c "s1"].
Proof.
  eapply (with_stmt_deletes_what_it_registered (body_raise boom) session0);
    reflexivity.
Defined.

(** Over the engine that refuses the data source, the failed entry leaves
    the suite it had registered in the store: nothing deletes it. *)
Example run_failed_entry_leaves_suite :
  list_expectation_suite_names (GX:=mem_gx_refusing)
    0 (ext (world (snd (with_stmt body_pass session_refused))))
  = ["s1"].
Proof. reflexivity. Qed.
